(** * PropWise: the property financial-analysis engine

    A shallow embedding of the analysis part of
    [real_estate_multi_app_ai.py]: the three helper functions
    [smart_rent_estimate], [investment_type_recommendation] and
    [smart_summary], and the comparison loop that turns the list of
    stored properties into the list [comparison_data] of result rows.

    Numbers.  The form widgets with an integer default return Python
    [int]s, modelled as [Z]; those with a float default (interest,
    appreciation) and the stored vacancy fraction are Python [float]s.
    Floats are modelled as exact rationals [Q]: the development is about
    the arithmetic the program writes down, not about binary64 rounding.
    Overflow and the rounding of the float operations are therefore outside
    the model.  What Python turns into an exception is kept as one: a true
    division by zero and a zero base raised to a negative power raise
    [ZeroDivisionError]. *)

From Stdlib Require Import ZArith QArith Qround Qabs Qpower.
From Stdlib Require Import Bool String Ascii List Permutation Lia Lqa.
From Stdlib Require Import DecimalString.
Import ListNotations.

Open Scope Q_scope.

(** ** Exceptions *)

Inductive PyError : Type :=
| ZeroDivisionError.

Definition Err (A : Type) : Type := (PyError + A)%type.

Definition OK {A : Type} (a : A) : Err A := inr a.
Definition raise {A : Type} (e : PyError) : Err A := inl e.

Definition bind {A B : Type} (m : Err A) (k : A -> Err B) : Err B :=
  match m with
  | inl e => inl e
  | inr a => k a
  end.

Notation "x <- m ;; k" := (bind m (fun x => k))
  (at level 61, m at next level, right associativity).

(** ** Arithmetic of Python numbers *)

(** [x / y]: true division. *)
Definition truediv (x y : Q) : Err Q :=
  if Qeq_bool y 0 then raise ZeroDivisionError else OK (x / y).

(** [x ** n] for a float [x] and an int [n]. *)
Definition pow (x : Q) (n : Z) : Err Q :=
  match n with
  | Z0 => OK 1
  | Zpos p => OK (Qpower_positive x p)
  | Zneg p =>
      if Qeq_bool x 0 then raise ZeroDivisionError
      else OK (/ Qpower_positive x p)
  end.

Definition lt (x y : Q) : bool := negb (Qle_bool y x).
Definition gt (x y : Q) : bool := lt y x.
Definition ge (x y : Q) : bool := Qle_bool y x.

(** Nearest integer, ties to the even one. *)
Definition round_half_even (x : Q) : Z :=
  let f := Qfloor x in
  let d := x - inject_Z f in
  if lt d (1 # 2) then f
  else if lt (1 # 2) d then (f + 1)%Z
  else if Z.even f then f else (f + 1)%Z.

(** [round(x, 2)] on a float. *)
Definition round2 (x : Q) : Q :=
  inject_Z (round_half_even (x * 100)) / 100.

(** [round(n, 2)] on an int gives the int back. *)
Definition round2_int (n : Z) : Z := n.

(** ** String formatting *)

Open Scope string_scope.

Definition str_of_N (n : N) : string :=
  NilZero.string_of_uint (N.to_uint n).

Definition zfill2 (n : N) : string :=
  if (n <? 10)%N then "0" ++ str_of_N n else str_of_N n.

(** The format specification [:.2f], on the exact value: the sign, then the
    amount rounded to whole cents.  The rationals have no negative zero, so
    the [-0.00] that Python prints for the float [-0.0] has no counterpart
    here. *)
Definition format_2f (x : Q) : string :=
  let c := Z.to_N (round_half_even (Qabs x * 100)) in
  (if lt x 0 then "-" else "")
    ++ str_of_N (c / 100) ++ "." ++ zfill2 (c mod 100).

(** [s.endswith(suffix)] *)
Fixpoint endswith (s suffix : string) : bool :=
  String.eqb s suffix ||
  match s with
  | EmptyString => false
  | String _ s' => endswith s' suffix
  end.

(** ** Records *)

(** An entry of [st.session_state.properties]. *)
Record PropertyInput : Type := mkProperty {
  Name : string;
  Address : string;
  ZIP : string;
  Image : string;
  SqFt : Z;
  Price : Z;
  Down : Z;
  Interest : Q;
  LoanTerm : Z;
  Tax : Z;
  Insurance : Z;
  Maint : Z;
  Vacancy : Q;
  Rent : Z;
  Appreciation : Q;
  Hold : Z;
  Rehab : Z;
  Resale : Z
}.

(** An entry of [comparison_data]. *)
Record Row : Type := mkRow {
  row_Name : string;
  row_Address : string;
  row_ZIP : string;
  row_Image : string;
  Monthly_Cost : Q;
  Net_Rent : Q;
  Cash_Flow : Q;
  Annual_Profit : Q;
  ROI_pct : Q;
  Flip_Profit : Z;
  Rent_Range : string;
  Investment_Type : string;
  Summary : string
}.

(** The loop's local variables that the row is built from. *)
Record Metrics : Type := mkMetrics {
  total_monthly : Q;
  net_rent : Q;
  cash_flow : Q;
  annual_cf : Q;
  roi : Q;
  flip_profit : Z
}.

(** ** AI-powered suggestions *)

Definition low_rate : Q := 11 # 10.
Definition high_rate : Q := 13 # 10.

Definition smart_rent_estimate (sqft : Z) (zip_code : string) : Q * Q :=
  (inject_Z sqft * low_rate, inject_Z sqft * high_rate)%Q.

Definition investment_type_recommendation
    (roi cash_flow : Q) (flip_profit : Z) : string :=
  if ge roi 10 && gt cash_flow 0 then "Best as a Rental"
  else if gt (inject_Z flip_profit) 0 && lt roi 10 then "Good for Flipping"
  else if lt roi 5 && lt cash_flow 0 then "Bad Buy"
  else "Depends — Evaluate Further".

Definition compelling : string := "making it a compelling investment.".

Definition smart_summary (name : string) (roi annual_cf net_rent : Q) : string :=
  name ++ " is projected to generate an annual cash flow of $"
       ++ format_2f annual_cf ++ " "
       ++ "with an ROI of " ++ format_2f roi
       ++ "%. The net rent collected is $" ++ format_2f net_rent
       ++ " per month, "
       ++ compelling.

Close Scope string_scope.

(** ** Display and comparison: the loop body *)

Definition loan_amt (prop : PropertyInput) : Z := (Price prop - Down prop)%Z.

Definition monthly_interest (prop : PropertyInput) : Err Q :=
  i <- truediv (Interest prop) 12 ;; truediv i 100.

Definition months (prop : PropertyInput) : Z := (LoanTerm prop * 12)%Z.

Definition mortgage (prop : PropertyInput) : Err Q :=
  r <- monthly_interest prop ;;
  g <- pow (1 + r) (months prop) ;;
  g' <- pow (1 + r) (months prop) ;;
  truediv (inject_Z (loan_amt prop) * (r * g)) (g' - 1).

Definition total_invested (prop : PropertyInput) : Z :=
  (Down prop + Maint prop * 12 * Hold prop)%Z.

Definition appreciation_gain (prop : PropertyInput) : Err Q :=
  a <- truediv (Appreciation prop) 100 ;;
  g <- pow (1 + a) (Hold prop) ;;
  let future_value := inject_Z (Price prop) * g in
  OK (future_value - inject_Z (Price prop)).

Definition metrics (prop : PropertyInput) : Err Metrics :=
  mortgage <- mortgage prop ;;
  tax_m <- truediv (inject_Z (Tax prop)) 12 ;;
  ins_m <- truediv (inject_Z (Insurance prop)) 12 ;;
  let total_monthly := mortgage + tax_m + ins_m + inject_Z (Maint prop) in
  let net_rent := inject_Z (Rent prop) * (1 - Vacancy prop) in
  let cash_flow := net_rent - total_monthly in
  let annual_cf := cash_flow * 12 in
  appreciation_gain <- appreciation_gain prop ;;
  q <- truediv (annual_cf * inject_Z (Hold prop) + appreciation_gain)
               (inject_Z (total_invested prop)) ;;
  let roi := q * 100 in
  let flip_profit := (Resale prop - Price prop - Rehab prop)%Z in
  OK (mkMetrics total_monthly net_rent cash_flow annual_cf roi flip_profit).

Definition rent_range (rent_low rent_high : Q) : string :=
  ("$" ++ format_2f rent_low ++ " - $" ++ format_2f rent_high)%string.

Definition make_row (prop : PropertyInput) (m : Metrics) : Row :=
  let '(rent_low, rent_high) := smart_rent_estimate (SqFt prop) (ZIP prop) in
  let invest_recommend :=
    investment_type_recommendation (roi m) (cash_flow m) (flip_profit m) in
  let summary := smart_summary (Name prop) (roi m) (annual_cf m) (net_rent m) in
  mkRow (Name prop) (Address prop) (ZIP prop) (Image prop)
        (round2 (total_monthly m))
        (round2 (net_rent m))
        (round2 (cash_flow m))
        (round2 (annual_cf m))
        (round2 (roi m))
        (round2_int (flip_profit m))
        (rent_range rent_low rent_high)
        invest_recommend
        summary.

(** One iteration: everything between [for prop in ...] and the [append]. *)
Definition analyse (prop : PropertyInput) : Err Row :=
  m <- metrics prop ;; OK (make_row prop m).

(** ** The loop over the stored properties *)

(** The loop threads the list being built; an exception in an iteration
    leaves the loop, and with it the script run. *)
Fixpoint for_each (props : list PropertyInput) (acc : list Row)
  : Err (list Row) :=
  match props with
  | [] => OK acc
  | prop :: rest =>
      row <- analyse prop ;;
      for_each rest (acc ++ [row])
  end.

Definition comparison_data (props : list PropertyInput) : Err (list Row) :=
  for_each props [].

(** ** Sample data *)

Open Scope string_scope.

(** The form's default values. *)
Definition property_a : PropertyInput :=
  mkProperty "Property A" "123 Main St" "12345" ""
             1500 200000 40000 (65 # 10) 30 3600 1200 150 (5 # 100)
             1800 3 5 30000 275000.

(** The same property financed at zero interest. *)
Definition property_zero_rate : PropertyInput :=
  mkProperty "Property Z" "123 Main St" "12345" ""
             1500 200000 40000 0 30 3600 1200 150 (5 # 100)
             1800 3 5 30000 275000.

(** Bought outright with nothing down and no upkeep: nothing invested. *)
Definition property_nothing_down : PropertyInput :=
  mkProperty "Property N" "5 Oak Ave" "12345" ""
             1500 200000 0 (65 # 10) 30 3600 1200 0 (5 # 100)
             1800 3 5 30000 275000.

(** A second property that analyses without trouble. *)
Definition property_b : PropertyInput :=
  mkProperty "Property B" "77 Elm Rd" "54321" ""
             900 120000 30000 (5 # 1) 15 2400 900 100 (10 # 100)
             1300 2 3 10000 150000.

(** Paid in cash, ROI of 9.996%: just under the rental threshold. *)
Definition property_edge : PropertyInput :=
  mkProperty "Property E" "9 Hill St" "12345" ""
             1000 100000 100000 (65 # 10) 1 0 0 0 0
             833 0 1 0 100000.

(** No rent and a falling market: loses money every month. *)
Definition property_loss : PropertyInput :=
  mkProperty "Property L" "1 Low Ln" "12345" ""
             1000 100000 20000 (65 # 10) 1 1200 600 100 0
             0 (-3) 2 5000 90000.

Close Scope string_scope.

(** ** Interval evaluation of powers

    Lower and upper bounds of [x ^ p], rounded at every step to twelve
    decimals so that the figures stay small. *)

Definition scale : positive := 1000000000000.

Definition round_down (q : Q) : Q := Qfloor (q * inject_Z (Zpos scale)) # scale.
Definition round_up (q : Q) : Q := Qceiling (q * inject_Z (Zpos scale)) # scale.

Fixpoint pow_down (x : Q) (p : positive) : Q :=
  match p with
  | xH => x
  | xO p' => let y := pow_down x p' in round_down (y * y)
  | xI p' => let y := pow_down x p' in round_down (x * round_down (y * y))
  end.

Fixpoint pow_up (x : Q) (p : positive) : Q :=
  match p with
  | xH => x
  | xO p' => let y := pow_up x p' in round_up (y * y)
  | xI p' => let y := pow_up x p' in round_up (x * round_up (y * y))
  end.

(** ** Readings of the specification *)

(** [x] is within one cent of the quoted amount [v]. *)
Definition within_a_cent (x v : Q) : Prop := Qabs (x - v) <= 1 # 100.

(** The zero-rate guard the specification asks for. *)
Definition zero_rate_straight_line (prop : PropertyInput) : Prop :=
  Interest prop == 0 -> (0 <= loan_amt prop)%Z -> (0 < LoanTerm prop)%Z ->
  exists payment,
    mortgage prop = OK payment /\
    payment == inject_Z (loan_amt prop) / inject_Z (months prop).

(** The amount the specification quotes for the default loan. *)
Definition quoted_payment : Prop :=
  exists payment,
    mortgage property_a = OK payment /\ within_a_cent payment (101138 # 100).

(** The amounts the specification quotes for the default property. *)
Definition quoted_metrics : Prop :=
  exists m,
    metrics property_a = OK m /\
    net_rent m == 1710 /\
    within_a_cent (total_monthly m) (156138 # 100) /\
    within_a_cent (cash_flow m) (14862 # 100).

(** A property whose own analysis succeeds. *)
Definition analysable (prop : PropertyInput) : Prop :=
  exists row, analyse prop = OK row.

(** The row the loop body appends for a property. *)
Definition produces (prop : PropertyInput) (row : Row) : Prop :=
  analyse prop = OK row.

(** Per-item isolation: every property that analyses on its own gets its
    row in the loop's result, whatever happens to its neighbours. *)
Definition isolates_failures (props : list PropertyInput) : Prop :=
  forall (i : nat) (prop : PropertyInput) (row : Row),
    nth_error props i = Some prop ->
    analyse prop = OK row ->
    exists rows,
      comparison_data props = OK rows /\ nth_error rows i = Some row.

(** Independence of the other properties: a property that has its row in
    the run over one collection has the same row in the run over any other
    collection that holds it. *)
Definition independent_of_neighbours (props props' : list PropertyInput)
  : Prop :=
  forall (i j : nat) (prop : PropertyInput) (row : Row),
    nth_error props i = Some prop ->
    nth_error props' j = Some prop ->
    (exists rows,
        comparison_data props = OK rows /\ nth_error rows i = Some row) ->
    exists rows',
      comparison_data props' = OK rows' /\ nth_error rows' j = Some row.

(** [y] is [x] rounded to two decimals: a whole number of cents, at most
    half a cent away from [x], and the even cent when [x] is half-way. *)
Definition rounded_to_cents (x y : Q) : Prop :=
  exists k : Z,
    y = inject_Z k / 100 /\
    Qabs (inject_Z k - x * 100) <= 1 # 2 /\
    (Qabs (inject_Z k - x * 100) == 1 # 2 -> Z.even k = true).

(** The three conditions of the classifier, as order relations. *)
Definition rental_rule (roi cash_flow : Q) : Prop :=
  10 <= roi /\ 0 < cash_flow.

Definition flipping_rule (roi : Q) (flip_profit : Z) : Prop :=
  (0 < flip_profit)%Z /\ roi < 10.

Definition bad_buy_rule (roi cash_flow : Q) : Prop :=
  roi < 5 /\ cash_flow < 0.

(** The classifier as the specification words it: an ordered table of
    (predicate, label) pairs, the first match wins, with a default label. *)
Definition Rule : Type := (Q -> Q -> Z -> bool) * string.

Open Scope string_scope.

Definition decision_table : list Rule :=
  [ (fun roi cash_flow _ => ge roi 10 && gt cash_flow 0, "Best as a Rental");
    (fun roi _ flip_profit => gt (inject_Z flip_profit) 0 && lt roi 10,
     "Good for Flipping");
    (fun roi cash_flow _ => lt roi 5 && lt cash_flow 0, "Bad Buy") ].

Definition default_label : string := "Depends — Evaluate Further".

Close Scope string_scope.

Fixpoint first_match (table : list Rule) (default : string)
    (roi cash_flow : Q) (flip_profit : Z) : string :=
  match table with
  | [] => default
  | (applies, label) :: rest =>
      if applies roi cash_flow flip_profit then label
      else first_match rest default roi cash_flow flip_profit
  end.

(** ** The sidebar form and the page *)

(** The values of the sidebar widgets in one script run.  The text inputs
    give strings, the number inputs with an integer default give ints, the
    two with a float default give floats, and the vacancy slider gives an
    int, which the widget keeps between 0 and 20. *)
Module Sidebar.

Record Form : Type := mkForm {
  name : string;
  address : string;
  zip_code : string;
  image_url : string;
  sqft : Z;
  price : Z;
  down : Z;
  interest : Q;
  loan_term : Z;
  tax : Z;
  insurance : Z;
  maint : Z;
  vacancy : Z;
  rent_est : Z;
  appreciation : Q;
  hold : Z;
  rehab : Z;
  resale : Z
}.

End Sidebar.

(** The dictionary the "Add Property" handler builds from the form. *)
Definition entry (form : Sidebar.Form) : PropertyInput :=
  mkProperty (Sidebar.name form) (Sidebar.address form)
             (Sidebar.zip_code form) (Sidebar.image_url form)
             (Sidebar.sqft form) (Sidebar.price form) (Sidebar.down form)
             (Sidebar.interest form) (Sidebar.loan_term form)
             (Sidebar.tax form) (Sidebar.insurance form) (Sidebar.maint form)
             (inject_Z (Sidebar.vacancy form) / 100)
             (Sidebar.rent_est form) (Sidebar.appreciation form)
             (Sidebar.hold form) (Sidebar.rehab form) (Sidebar.resale form).

(** [if st.sidebar.button("Add Property"): properties.append({...})] *)
Definition add_property (button : bool) (form : Sidebar.Form)
    (properties : list PropertyInput) : list PropertyInput :=
  if button then properties ++ [entry form] else properties.

(** Successive runs of the script, each with the button pressed. *)
Definition add_properties (forms : list Sidebar.Form)
    (properties : list PropertyInput) : list PropertyInput :=
  fold_left (fun props form => add_property true form props) forms properties.

(** The two columns handed to [ax.bar]: [df["Name"]] and [df["ROI (%)"]].
    What matplotlib draws from them (equal names share one position on the
    axis) is not modelled. *)
Definition bar_columns (rows : list Row) : list string * list Q :=
  (map row_Name rows, map ROI_pct rows).

(** What a script run shows below the title. *)
Inductive Page : Type :=
| Warning
| Comparison (rows : list Row) (bars : list string * list Q).

(** [if st.session_state.properties: ... else: st.warning(...)] *)
Definition render (properties : list PropertyInput) : Err Page :=
  match properties with
  | [] => OK Warning
  | _ :: _ =>
      rows <- comparison_data properties ;;
      OK (Comparison rows (bar_columns rows))
  end.

Open Scope string_scope.

(** The form as the page first shows it. *)
Definition default_form : Sidebar.Form :=
  Sidebar.mkForm "Property A" "123 Main St" "12345" ""
                 1500 200000 40000 (65 # 10) 30 3600 1200 150 5
                 1800 3 5 30000 275000.

(** The same form with the interest rate set to zero. *)
Definition zero_rate_form : Sidebar.Form :=
  Sidebar.mkForm "Property Z" "123 Main St" "12345" ""
                 1500 200000 40000 0 30 3600 1200 150 5
                 1800 3 5 30000 275000.

(** A loan with a term of zero years. *)
Definition property_zero_term : PropertyInput :=
  mkProperty "Property T" "3 Short St" "12345" ""
             1500 200000 40000 (65 # 10) 0 3600 1200 150 (5 # 100)
             1800 3 5 30000 275000.

(** Bought in cash: the down payment is the whole price. *)
Definition property_cash : PropertyInput :=
  mkProperty "Property C" "8 Gold Ct" "12345" ""
             1500 200000 200000 (65 # 10) 30 3600 1200 150 (5 # 100)
             1800 3 5 30000 275000.

Close Scope string_scope.

(** * Properties *)

(** ** The exception monad and the arithmetic *)

Lemma bind_OK_inv {A B : Type} (m : Err A) (k : A -> Err B) (b : B) :
  bind m k = OK b -> exists a, m = OK a /\ k a = OK b.
Proof.
  destruct m as [e | a]; simpl; intros H.
  - discriminate H.
  - exists a. split; [reflexivity | exact H].
Qed.

Lemma only_ZeroDivisionError {A : Type} (m : Err A) :
  (forall a, m <> OK a) -> m = raise ZeroDivisionError.
Proof.
  destruct m as [[] | a]; intros H.
  - reflexivity.
  - exfalso. apply (H a). reflexivity.
Qed.

Lemma truediv_OK (x y : Q) : ~ y == 0 -> truediv x y = OK (x / y).
Proof.
  intros Hy. unfold truediv.
  destruct (Qeq_bool y 0) eqn:E; [| reflexivity].
  apply Qeq_bool_eq in E. contradiction.
Qed.

Lemma truediv_raise (x y : Q) : y == 0 -> truediv x y = raise ZeroDivisionError.
Proof.
  intros Hy. unfold truediv. rewrite (Qeq_eq_bool _ _ Hy). reflexivity.
Qed.

Lemma truediv_const (x : Q) (n : positive) :
  truediv x (Zpos n # 1) = OK (x / (Zpos n # 1)).
Proof. reflexivity. Qed.

Lemma pow_Qpower (x : Q) (n : Z) :
  (0 <= n)%Z \/ ~ x == 0 -> pow x n = OK (x ^ n).
Proof.
  intros H. destruct n as [| p | p]; simpl; try reflexivity.
  destruct H as [H | H]; [lia |].
  destruct (Qeq_bool x 0) eqn:E; [| reflexivity].
  apply Qeq_bool_eq in E. contradiction.
Qed.

Lemma pow_one (x : Q) (n : Z) (g : Q) : x == 1 -> pow x n = OK g -> g == 1.
Proof.
  intros Hx Hp.
  assert (Hnz : ~ x == 0) by (rewrite Hx; discriminate).
  rewrite pow_Qpower in Hp by (right; exact Hnz).
  injection Hp as <-. rewrite Hx. apply Qpower_1.
Qed.

Lemma monthly_interest_OK (prop : PropertyInput) :
  monthly_interest prop = OK (Interest prop / 12 / 100).
Proof. reflexivity. Qed.

(** ** Amortization *)

Lemma mortgage_zero_rate (prop : PropertyInput) :
  Interest prop == 0 -> mortgage prop = raise ZeroDivisionError.
Proof.
  intros Hi. apply only_ZeroDivisionError. intros payment Hm.
  unfold mortgage in Hm. rewrite monthly_interest_OK in Hm. simpl bind in Hm.
  set (r := Interest prop / 12 / 100) in Hm.
  assert (Hr : 1 + r == 1) by (unfold r; rewrite Hi; reflexivity).
  destruct (pow (1 + r) (months prop)) as [e | g] eqn:Hg; [discriminate Hm |].
  simpl bind in Hm.
  rewrite truediv_raise in Hm; [discriminate Hm |].
  rewrite (pow_one _ _ _ Hr Hg). reflexivity.
Qed.

Lemma metrics_mortgage_raise (prop : PropertyInput) (e : PyError) :
  mortgage prop = raise e -> analyse prop = raise e.
Proof.
  intros H. unfold analyse, metrics. rewrite H. reflexivity.
Qed.

(** C1, as stated, fails: at zero interest the default property gets no
    straight-line payment, the mortgage line raises instead. *)
Lemma zero_rate_not_special_cased : ~ zero_rate_straight_line property_zero_rate.
Proof.
  intros H.
  destruct H as [payment [Hm _]]; [reflexivity | discriminate | reflexivity |].
  rewrite mortgage_zero_rate in Hm by reflexivity. discriminate Hm.
Qed.

(** C1 (amended): for every property with a zero interest rate the
    unguarded formula divides by [(1+0)^n - 1 = 0]: the mortgage line raises
    ZeroDivisionError, and so does the analysis of that property. *)
Theorem zero_rate_raises (prop : PropertyInput) :
  Interest prop == 0 ->
  mortgage prop = raise ZeroDivisionError /\
  analyse prop = raise ZeroDivisionError.
Proof.
  intros Hi. pose proof (mortgage_zero_rate prop Hi) as Hm.
  split; [exact Hm | apply metrics_mortgage_raise; exact Hm].
Qed.

Lemma zero_rate_raises_witness :
  Interest property_zero_rate == 0 /\
  mortgage property_zero_rate = raise ZeroDivisionError /\
  analyse property_zero_rate = raise ZeroDivisionError.
Proof.
  split; [reflexivity | apply (zero_rate_raises property_zero_rate); reflexivity].
Defined.

Lemma mortgage_positive_rate (prop : PropertyInput) :
  0 < Interest prop -> (0 < LoanTerm prop)%Z ->
  let r := Interest prop / 12 / 100 in
  let g := (1 + r) ^ months prop in
  1 < g /\ mortgage prop = OK (inject_Z (loan_amt prop) * (r * g) / (g - 1)).
Proof.
  intros Hi Ht r g.
  assert (Hr : 0 < r).
  { unfold r. apply Qlt_shift_div_l; [reflexivity |].
    apply Qlt_shift_div_l; [reflexivity |]. lra. }
  assert (Hg : 1 < g).
  { unfold g. apply Qpower_1_lt; [lra | unfold months; lia]. }
  split; [exact Hg |].
  unfold mortgage. rewrite monthly_interest_OK. simpl bind. fold r.
  rewrite pow_Qpower by (left; unfold months; lia). simpl bind. fold g.
  apply truediv_OK. lra.
Qed.

(** *** Bounds by interval evaluation *)

Lemma round_down_le (q : Q) : round_down q <= q.
Proof.
  unfold round_down. rewrite Qmake_Qdiv.
  apply Qle_shift_div_r; [reflexivity |]. apply Qfloor_le.
Qed.

Lemma round_up_ge (q : Q) : q <= round_up q.
Proof.
  unfold round_up. rewrite Qmake_Qdiv.
  apply Qle_shift_div_l; [reflexivity |]. apply Qle_ceiling.
Qed.

Lemma round_down_nonneg (q : Q) : 0 <= q -> 0 <= round_down q.
Proof.
  intros Hq. unfold round_down, Qle. cbn [Qnum Qden].
  rewrite Z.mul_0_l, Z.mul_1_r.
  change 0%Z with (Qfloor 0).
  apply Qfloor_resp_le, Qmult_le_0_compat; [exact Hq | discriminate].
Qed.

Lemma pow_down_spec (x : Q) (p : positive) :
  0 <= x -> 0 <= pow_down x p /\ pow_down x p <= Qpower_positive x p.
Proof.
  intros Hx. induction p as [p [IH0 IH] | p [IH0 IH] |].
  - change (Qpower_positive x p~1)
      with (x * (Qpower_positive x p * Qpower_positive x p)).
    cbn [pow_down].
    assert (H1 : 0 <= round_down (pow_down x p * pow_down x p)).
    { apply round_down_nonneg, Qmult_le_0_compat; assumption. }
    assert (H2 : round_down (pow_down x p * pow_down x p)
                 <= Qpower_positive x p * Qpower_positive x p).
    { eapply Qle_trans; [apply round_down_le |].
      apply Qmult_le_compat_nonneg; split; assumption. }
    split.
    + apply round_down_nonneg, Qmult_le_0_compat; assumption.
    + eapply Qle_trans; [apply round_down_le |].
      apply Qmult_le_compat_nonneg; split;
        [exact Hx | apply Qle_refl | exact H1 | exact H2].
  - change (Qpower_positive x p~0)
      with (Qpower_positive x p * Qpower_positive x p).
    cbn [pow_down]. split.
    + apply round_down_nonneg, Qmult_le_0_compat; assumption.
    + eapply Qle_trans; [apply round_down_le |].
      apply Qmult_le_compat_nonneg; split; assumption.
  - split; [exact Hx | apply Qle_refl].
Qed.

Lemma pow_up_spec (x : Q) (p : positive) :
  0 <= x -> Qpower_positive x p <= pow_up x p.
Proof.
  intros Hx.
  assert (H0 : forall q, 0 <= Qpower_positive x q)
    by (intros q; apply Qpower_pos_positive; exact Hx).
  induction p as [p IH | p IH |].
  - change (Qpower_positive x p~1)
      with (x * (Qpower_positive x p * Qpower_positive x p)).
    cbn [pow_up].
    eapply Qle_trans; [| apply round_up_ge].
    apply Qmult_le_compat_nonneg; split; [exact Hx | apply Qle_refl | |].
    + apply Qmult_le_0_compat; apply H0.
    + eapply Qle_trans; [| apply round_up_ge].
      apply Qmult_le_compat_nonneg; split; auto.
  - change (Qpower_positive x p~0)
      with (Qpower_positive x p * Qpower_positive x p).
    cbn [pow_up].
    eapply Qle_trans; [| apply round_up_ge].
    apply Qmult_le_compat_nonneg; split; auto.
  - apply Qle_refl.
Qed.

Lemma growth_default :
  6991797 # 1000000 < (1 + (65 # 10) / 12 / 100) ^ 360 /\
  (1 + (65 # 10) / 12 / 100) ^ 360 < 6991799 # 1000000.
Proof.
  assert (Hx : 1 + (65 # 10) / 12 / 100 == 2413 # 2400) by reflexivity.
  rewrite Hx.
  change ((2413 # 2400) ^ 360) with (Qpower_positive (2413 # 2400) 360).
  destruct (pow_down_spec (2413 # 2400) 360) as [_ Hlo]; [discriminate |].
  pose proof (pow_up_spec (2413 # 2400) 360) as Hhi.
  split.
  - eapply Qlt_le_trans; [| exact Hlo]. vm_compute. reflexivity.
  - eapply Qle_lt_trans; [apply Hhi; discriminate |]. vm_compute. reflexivity.
Qed.

Lemma default_payment_bounds (g : Q) :
  6991797 # 1000000 < g -> g < 6991799 # 1000000 ->
  101130 # 100 < (160000 # 1) * ((13 # 2400) * g) / (g - 1) /\
  (160000 # 1) * ((13 # 2400) * g) / (g - 1) < 101131 # 100.
Proof.
  intros Hlo Hhi. split.
  - apply Qlt_shift_div_l; lra.
  - apply Qlt_shift_div_r; lra.
Qed.

(** The default loan: 160000 at 6.5% over 30 years. *)
Lemma mortgage_property_a :
  exists payment,
    mortgage property_a = OK payment /\
    101130 # 100 < payment /\ payment < 101131 # 100.
Proof.
  destruct (mortgage_positive_rate property_a) as [_ Hm];
    [reflexivity | reflexivity |].
  eexists. split; [exact Hm |].
  change (months property_a) with 360%Z.
  change (Interest property_a) with (65 # 10).
  change (inject_Z (loan_amt property_a)) with (160000 # 1).
  destruct growth_default as [Hlo Hhi].
  set (g := (1 + (65 # 10) / 12 / 100) ^ 360) in *. clearbody g.
  assert (Hr : (65 # 10) / 12 / 100 == 13 # 2400) by reflexivity.
  rewrite Hr. apply default_payment_bounds; assumption.
Qed.

(** C6, as stated, fails on its example: the payment on 160000 at 6.5% over
    30 years is not within a cent of 1011.38. *)
Lemma quoted_payment_wrong : ~ quoted_payment.
Proof.
  intros [payment [Hm Hc]].
  destruct mortgage_property_a as [pay [Hp [Hlo Hhi]]].
  rewrite Hp in Hm. injection Hm as <-.
  apply Qabs_diff_Qle_condition in Hc. lra.
Qed.

(** C6 (amended): for every positive rate and positive term the mortgage
    line returns [P * r * (1+r)^n / ((1+r)^n - 1)] with [r = rate/12/100] and
    [n = term * 12]; for 160000 at 6.5% over 30 years that payment is
    1011.31 to the cent. *)
Theorem mortgage_formula :
  (forall prop : PropertyInput,
      0 < Interest prop -> (0 < LoanTerm prop)%Z ->
      let P := inject_Z (loan_amt prop) in
      let r := Interest prop / 12 / 100 in
      let n := months prop in
      exists payment,
        mortgage prop = OK payment /\
        payment == P * r * (1 + r) ^ n / ((1 + r) ^ n - 1)) /\
  (loan_amt property_a = 160000%Z /\
   Interest property_a == 65 # 10 /\
   LoanTerm property_a = 30%Z /\
   exists payment,
     mortgage property_a = OK payment /\ within_a_cent payment (101131 # 100)).
Proof.
  split.
  - intros prop Hi Ht P r n.
    destruct (mortgage_positive_rate prop Hi Ht) as [Hg Hm].
    fold r in Hg, Hm. fold n in Hg, Hm. fold P in Hm.
    eexists. split; [exact Hm |].
    unfold Qdiv. ring.
  - split; [reflexivity | split; [reflexivity | split; [reflexivity |]]].
    destruct mortgage_property_a as [pay [Hp [Hlo Hhi]]].
    exists pay. split; [exact Hp |].
    apply Qabs_diff_Qle_condition. lra.
Qed.

Lemma mortgage_formula_witness :
  0 < Interest property_a /\ (0 < LoanTerm property_a)%Z /\
  exists payment,
    mortgage property_a = OK payment /\
    payment ==
      inject_Z (loan_amt property_a) * (Interest property_a / 12 / 100)
      * (1 + Interest property_a / 12 / 100) ^ months property_a
      / ((1 + Interest property_a / 12 / 100) ^ months property_a - 1).
Proof.
  split; [reflexivity | split; [reflexivity |]].
  apply (proj1 mortgage_formula property_a); reflexivity.
Defined.

(** ** Metrics *)

Lemma inject_Z_nonzero (z : Z) : z <> 0%Z -> ~ inject_Z z == 0.
Proof.
  intros Hz H. apply Hz. unfold Qeq in H. simpl in H. lia.
Qed.

Lemma appreciation_gain_OK (prop : PropertyInput) :
  (0 <= Hold prop)%Z ->
  appreciation_gain prop =
    OK (inject_Z (Price prop) * (1 + Appreciation prop / 100) ^ Hold prop
        - inject_Z (Price prop)).
Proof.
  intros Hh. unfold appreciation_gain.
  rewrite truediv_const. simpl bind.
  rewrite pow_Qpower by (left; exact Hh). reflexivity.
Qed.

Lemma metrics_zero_investment (prop : PropertyInput) :
  total_invested prop = 0%Z -> metrics prop = raise ZeroDivisionError.
Proof.
  intros Hz. apply only_ZeroDivisionError. intros m Hm.
  unfold metrics in Hm.
  apply bind_OK_inv in Hm. destruct Hm as [payment [_ Hm]].
  rewrite !truediv_const in Hm. simpl bind in Hm.
  apply bind_OK_inv in Hm. destruct Hm as [gain [_ Hm]].
  rewrite Hz in Hm. rewrite truediv_raise in Hm by reflexivity.
  discriminate Hm.
Qed.

Lemma metrics_defined (prop : PropertyInput) (payment : Q) :
  mortgage prop = OK payment ->
  total_invested prop <> 0%Z ->
  (0 <= Hold prop)%Z ->
  exists m,
    metrics prop = OK m /\
    total_monthly m =
      payment + inject_Z (Tax prop) / 12 + inject_Z (Insurance prop) / 12
      + inject_Z (Maint prop) /\
    net_rent m = inject_Z (Rent prop) * (1 - Vacancy prop) /\
    cash_flow m = net_rent m - total_monthly m /\
    annual_cf m = cash_flow m * 12 /\
    roi m =
      (annual_cf m * inject_Z (Hold prop)
       + (inject_Z (Price prop)
          * (1 + Appreciation prop / 100) ^ Hold prop
          - inject_Z (Price prop)))
      / inject_Z (total_invested prop) * 100 /\
    flip_profit m = (Resale prop - Price prop - Rehab prop)%Z.
Proof.
  intros Hm Hz Hh.
  unfold metrics. rewrite Hm. simpl bind.
  rewrite (appreciation_gain_OK prop Hh). simpl bind.
  rewrite truediv_OK by (apply inject_Z_nonzero; exact Hz). simpl bind.
  eexists. split; [reflexivity |].
  simpl. repeat split; reflexivity.
Qed.

(** The default property: what the loop computes for it. *)
Lemma metrics_property_a :
  exists m,
    metrics property_a = OK m /\
    net_rent m == 1710 /\
    (156130 # 100 < total_monthly m /\ total_monthly m < 156131 # 100) /\
    (14869 # 100 < cash_flow m /\ cash_flow m < 14870 # 100).
Proof.
  destruct mortgage_property_a as [payment [Hp [Hlo Hhi]]].
  destruct (metrics_defined property_a payment Hp)
    as [m [Hm [Ht [Hn [Hc _]]]]]; [discriminate | discriminate |].
  exists m. split; [exact Hm |].
  change (inject_Z (Tax property_a)) with (3600 # 1) in Ht.
  change (inject_Z (Insurance property_a)) with (1200 # 1) in Ht.
  change (inject_Z (Maint property_a)) with (150 # 1) in Ht.
  change (inject_Z (Rent property_a)) with (1800 # 1) in Hn.
  change (Vacancy property_a) with (5 # 100) in Hn.
  rewrite Hc, Hn, Ht.
  assert (H12 : forall x : Q, x / 12 == x * (1 # 12)) by (intros x; reflexivity).
  rewrite !H12.
  split; [| split; split]; lra.
Qed.

(** C5, as stated, fails on its example: the monthly cost of the default
    property is not within a cent of 1561.38 (nor its cash flow of 148.62). *)
Lemma quoted_metrics_wrong : ~ quoted_metrics.
Proof.
  intros [m [Hm [_ [Hc _]]]].
  destruct metrics_property_a as [m' [Hm' [_ [[Hlo Hhi] _]]]].
  rewrite Hm' in Hm. injection Hm as <-.
  apply Qabs_diff_Qle_condition in Hc. lra.
Qed.

(** C5 (amended): whenever the mortgage payment is defined and the amount
    invested is not zero (hold period not negative), the loop computes the
    monthly cost, net rent, monthly and annual cash flow, ROI and flip profit
    by the stated formulas; for the default property the net rent is 1710,
    the monthly cost 1561.31 and the monthly cash flow 148.69 to the cent. *)
Theorem metrics_formulas :
  (forall (prop : PropertyInput) (payment : Q),
      mortgage prop = OK payment ->
      total_invested prop <> 0%Z ->
      (0 <= Hold prop)%Z ->
      exists m,
        metrics prop = OK m /\
        total_monthly m =
          payment + inject_Z (Tax prop) / 12 + inject_Z (Insurance prop) / 12
          + inject_Z (Maint prop) /\
        net_rent m = inject_Z (Rent prop) * (1 - Vacancy prop) /\
        cash_flow m = net_rent m - total_monthly m /\
        annual_cf m = cash_flow m * 12 /\
        roi m =
          (annual_cf m * inject_Z (Hold prop)
           + (inject_Z (Price prop)
              * (1 + Appreciation prop / 100) ^ Hold prop
              - inject_Z (Price prop)))
          / inject_Z (total_invested prop) * 100 /\
        flip_profit m = (Resale prop - Price prop - Rehab prop)%Z) /\
  (exists m,
      metrics property_a = OK m /\
      net_rent m == 1710 /\
      within_a_cent (total_monthly m) (156131 # 100) /\
      within_a_cent (cash_flow m) (14869 # 100)).
Proof.
  split.
  - exact metrics_defined.
  - destruct metrics_property_a as [m [Hm [Hn [[Hlo Hhi] [Hlo' Hhi']]]]].
    exists m. split; [exact Hm |]. split; [exact Hn |].
    split; apply Qabs_diff_Qle_condition; lra.
Qed.

Lemma metrics_formulas_witness :
  exists payment m,
    mortgage property_a = OK payment /\
    metrics property_a = OK m /\
    cash_flow m = net_rent m - total_monthly m.
Proof.
  destruct mortgage_property_a as [payment [Hp _]].
  destruct (proj1 metrics_formulas property_a payment Hp)
    as [m [Hm [_ [_ [Hc _]]]]]; [discriminate | discriminate |].
  exists payment, m.
  split; [exact Hp | split; [exact Hm | exact Hc]].
Defined.

(** C2: when the amount invested is zero, the division of the ROI line
    raises ZeroDivisionError whatever its numerator, so the property's
    analysis ends in that error and no row (hence no infinite or undefined
    ROI) is produced. *)
Theorem zero_investment_raises (prop : PropertyInput) :
  total_invested prop = 0%Z ->
  (forall x : Q,
      truediv x (inject_Z (total_invested prop)) = raise ZeroDivisionError) /\
  metrics prop = raise ZeroDivisionError /\
  analyse prop = raise ZeroDivisionError.
Proof.
  intros Hz. split; [| split].
  - intros x. rewrite Hz. apply truediv_raise. reflexivity.
  - apply metrics_zero_investment. exact Hz.
  - unfold analyse. rewrite (metrics_zero_investment prop Hz). reflexivity.
Qed.

Lemma zero_investment_raises_witness :
  total_invested property_nothing_down = 0%Z /\
  analyse property_nothing_down = raise ZeroDivisionError.
Proof.
  split; [reflexivity |].
  apply (zero_investment_raises property_nothing_down). reflexivity.
Defined.

(** ** The comparison loop *)

Lemma analyse_zero_investment (prop : PropertyInput) :
  total_invested prop = 0%Z -> analyse prop = raise ZeroDivisionError.
Proof.
  intros Hz. unfold analyse.
  rewrite (metrics_zero_investment prop Hz). reflexivity.
Qed.

Lemma analysable_positive_rate (prop : PropertyInput) :
  0 < Interest prop -> (0 < LoanTerm prop)%Z ->
  total_invested prop <> 0%Z -> (0 <= Hold prop)%Z ->
  analysable prop.
Proof.
  intros Hi Ht Hz Hh.
  destruct (mortgage_positive_rate prop Hi Ht) as [_ Hm].
  unfold analysable, analyse, metrics. rewrite Hm. simpl bind.
  rewrite (appreciation_gain_OK prop Hh). simpl bind.
  rewrite truediv_OK by (apply inject_Z_nonzero; exact Hz). simpl bind.
  eexists. reflexivity.
Qed.

Lemma analysable_property_a : analysable property_a.
Proof.
  apply analysable_positive_rate; [reflexivity | reflexivity | | ]; discriminate.
Qed.

Lemma analysable_property_b : analysable property_b.
Proof.
  apply analysable_positive_rate; [reflexivity | reflexivity | | ]; discriminate.
Qed.

Lemma for_each_OK (props : list PropertyInput) :
  forall acc rows,
    for_each props acc = OK rows ->
    exists new, rows = acc ++ new /\ Forall2 produces props new.
Proof.
  induction props as [| prop rest IH]; intros acc rows H; cbn [for_each] in H.
  - injection H as <-. exists []. split; [| constructor].
    symmetry. apply app_nil_r.
  - apply bind_OK_inv in H. destruct H as [row [Hrow Hrest]].
    destruct (IH _ _ Hrest) as [new [Heq Hall]].
    exists (row :: new). split.
    + rewrite Heq, <- app_assoc. reflexivity.
    + constructor; assumption.
Qed.

Lemma for_each_complete (props : list PropertyInput) (new : list Row) :
  Forall2 produces props new ->
  forall acc, for_each props acc = OK (acc ++ new).
Proof.
  induction 1 as [| prop row rest new' Hrow Hall IH]; intros acc;
    cbn [for_each].
  - rewrite app_nil_r. reflexivity.
  - unfold produces in Hrow. rewrite Hrow. cbn [bind OK].
    rewrite IH, <- app_assoc. reflexivity.
Qed.

Lemma for_each_raise (pre : list PropertyInput) :
  forall acc prop post e,
    Forall analysable pre ->
    analyse prop = raise e ->
    for_each (pre ++ prop :: post) acc = raise e.
Proof.
  induction pre as [| p pre' IH]; intros acc prop post e Hpre Hprop;
    cbn [for_each app].
  - rewrite Hprop. reflexivity.
  - inversion Hpre as [| ? ? [row Hrow] Hpre']; subst.
    rewrite Hrow. cbn [bind OK]. apply IH; assumption.
Qed.

Lemma analysable_all (props : list PropertyInput) :
  Forall analysable props -> exists new, Forall2 produces props new.
Proof.
  induction 1 as [| prop rest [row Hrow] _ [new Hnew]].
  - exists []. constructor.
  - exists (row :: new). constructor; assumption.
Qed.

Lemma produces_nth_error (props : list PropertyInput) (rows : list Row) :
  Forall2 produces props rows ->
  forall i prop,
    nth_error props i = Some prop ->
    exists row, nth_error rows i = Some row /\ analyse prop = OK row.
Proof.
  induction 1 as [| p r ps rs Hpr Hall IH]; intros [| i] prop Hi;
    cbn [nth_error] in *; try discriminate.
  - injection Hi as <-. exists r. split; [reflexivity | exact Hpr].
  - apply IH. exact Hi.
Qed.

Lemma comparison_data_OK (props : list PropertyInput) (rows : list Row) :
  comparison_data props = OK rows -> Forall2 produces props rows.
Proof.
  intros H. apply for_each_OK in H. destruct H as [new [-> Hall]].
  exact Hall.
Qed.

Lemma comparison_data_defined (props : list PropertyInput) :
  Forall analysable props ->
  exists rows, comparison_data props = OK rows /\ Forall2 produces props rows.
Proof.
  intros H. destruct (analysable_all props H) as [new Hnew].
  exists new. split; [| exact Hnew].
  unfold comparison_data. rewrite (for_each_complete props new Hnew).
  reflexivity.
Qed.


Lemma comparison_data_raise (props pre : list PropertyInput)
    (prop : PropertyInput) (post : list PropertyInput) (e : PyError) :
  props = pre ++ prop :: post ->
  Forall analysable pre ->
  analyse prop = raise e ->
  comparison_data props = raise e.
Proof.
  intros -> Hpre Hprop. unfold comparison_data.
  apply for_each_raise; assumption.
Qed.

(** C3, as stated, fails: with a property in the middle whose ROI line
    raises, the loop yields no rows at all, not even the row of the first
    property, which analyses fine on its own. *)
Lemma batch_aborts_on_failure :
  ~ isolates_failures [property_a; property_nothing_down; property_b].
Proof.
  intros H.
  destruct analysable_property_a as [row Hrow].
  destruct (H 0%nat property_a row eq_refl Hrow) as [rows [Hc _]].
  rewrite (comparison_data_raise
             [property_a; property_nothing_down; property_b]
             [property_a] property_nothing_down [property_b]
             ZeroDivisionError eq_refl) in Hc.
  - discriminate Hc.
  - constructor; [exact analysable_property_a | constructor].
  - apply analyse_zero_investment. reflexivity.
Qed.

(** C3 (amended): the loop has no per-item error handling.  When every
    property analyses, it yields one row per property, in the original order
    and count, each the row of its own property; when some property's
    computation raises, the loop ends at the first such property with that
    error and yields no rows for any property. *)
Theorem comparison_all_or_nothing (props : list PropertyInput) :
  (Forall analysable props ->
   exists rows,
     comparison_data props = OK rows /\
     length rows = length props /\
     forall i prop,
       nth_error props i = Some prop ->
       exists row, nth_error rows i = Some row /\ analyse prop = OK row) /\
  (forall pre prop post e,
      props = pre ++ prop :: post ->
      Forall analysable pre ->
      analyse prop = raise e ->
      comparison_data props = raise e).
Proof.
  split.
  - intros Hall.
    destruct (comparison_data_defined props Hall) as [rows [Hc Hrows]].
    exists rows. split; [exact Hc |]. split.
    + symmetry. exact (Forall2_length Hrows).
    + apply produces_nth_error. exact Hrows.
  - intros pre prop post e. apply comparison_data_raise.
Qed.

Lemma comparison_all_or_nothing_witness :
  (exists rows,
      comparison_data [property_a; property_b] = OK rows /\
      length rows = 2%nat) /\
  comparison_data [property_a; property_nothing_down; property_b]
  = raise ZeroDivisionError.
Proof.
  split.
  - destruct (proj1 (comparison_all_or_nothing [property_a; property_b]))
      as [rows [Hc [Hlen _]]].
    + constructor; [exact analysable_property_a |].
      constructor; [exact analysable_property_b | constructor].
    + exists rows. split; [exact Hc | exact Hlen].
  - apply (proj2 (comparison_all_or_nothing
                    [property_a; property_nothing_down; property_b])
             [property_a] property_nothing_down [property_b]).
    + reflexivity.
    + constructor; [exact analysable_property_a | constructor].
    + apply analyse_zero_investment. reflexivity.
Defined.

Lemma produces_analysable (props : list PropertyInput) (rows : list Row) :
  Forall2 produces props rows -> Forall analysable props.
Proof.
  induction 1 as [| prop row props' rows' Hp Hall IH]; constructor.
  - exists row. exact Hp.
  - exact IH.
Qed.

Lemma produces_permutation (props props' : list PropertyInput) :
  Permutation props props' ->
  forall rows,
    Forall2 produces props rows ->
    exists rows', Forall2 produces props' rows' /\ Permutation rows rows'.
Proof.
  induction 1 as [| p l l' Hperm IH | p q l | l l' l'' H1 IH1 H2 IH2];
    intros rows H.
  - inversion H; subst. exists []. split; constructor.
  - inversion H as [| ? r ? rs Hp Hall]; subst.
    destruct (IH rs Hall) as [rs' [Hrs' Hp']].
    exists (r :: rs'). split; constructor; assumption.
  - inversion H as [| ? rq ? rs0 Hq Hall0]; subst.
    inversion Hall0 as [| ? rp ? rs Hp Hall]; subst.
    exists (rp :: rq :: rs). split.
    + constructor; [exact Hp | constructor; [exact Hq | exact Hall]].
    + apply perm_swap.
  - destruct (IH1 rows H) as [rows' [Hrows' Hp']].
    destruct (IH2 rows' Hrows') as [rows'' [Hrows'' Hp'']].
    exists rows''. split; [exact Hrows'' |].
    exact (perm_trans Hp' Hp'').
Qed.

Lemma comparison_data_complete (props : list PropertyInput) (rows : list Row) :
  Forall2 produces props rows -> comparison_data props = OK rows.
Proof.
  intros H. unfold comparison_data.
  rewrite (for_each_complete props rows H). reflexivity.
Qed.

(** C8, as stated, fails: the default property has its row when it is the
    only one stored, and none when it is stored next to a property with
    nothing invested, whose ROI line raises. *)
Lemma neighbour_decides_result :
  ~ independent_of_neighbours
      [property_a] [property_a; property_nothing_down].
Proof.
  intros H.
  destruct analysable_property_a as [row Hrow].
  destruct (H 0%nat 0%nat property_a row eq_refl eq_refl) as [rows' [Hc _]].
  - exists [row]. split; [| reflexivity].
    apply comparison_data_complete. constructor; [exact Hrow | constructor].
  - rewrite (comparison_data_raise
               [property_a; property_nothing_down]
               [property_a] property_nothing_down []
               ZeroDivisionError eq_refl) in Hc.
    + discriminate Hc.
    + constructor; [exact analysable_property_a | constructor].
    + apply analyse_zero_investment. reflexivity.
Qed.

(** C8 (amended): in a run that completes, the row of each property is the
    analysis of that property alone, whatever its position and neighbours,
    and reordering the collection only reorders the rows (a run that raises
    still raises after reordering); but whether a property gets a row does
    depend on the other properties: one property whose computation raises
    leaves the whole run, and so every property in it, without a result. *)
Theorem rows_independent_up_to_failure :
  (forall (props : list PropertyInput) (rows : list Row),
      comparison_data props = OK rows ->
      forall (i : nat) (prop : PropertyInput),
        nth_error props i = Some prop ->
        exists row, analyse prop = OK row /\ nth_error rows i = Some row) /\
  (forall props props' : list PropertyInput,
      Permutation props props' ->
      (forall rows,
          comparison_data props = OK rows ->
          exists rows',
            comparison_data props' = OK rows' /\ Permutation rows rows') /\
      (forall e,
          comparison_data props = raise e ->
          exists e', comparison_data props' = raise e')) /\
  (forall (props : list PropertyInput) (prop : PropertyInput) (e : PyError),
      In prop props ->
      analyse prop = raise e ->
      exists e', comparison_data props = raise e').
Proof.
  split; [| split].
  - intros props rows Hc i prop Hi.
    apply comparison_data_OK in Hc.
    destruct (produces_nth_error _ _ Hc _ _ Hi) as [row [Hrow Ha]].
    exists row. split; [exact Ha | exact Hrow].
  - intros props props' Hperm. split.
    + intros rows Hc. apply comparison_data_OK in Hc.
      destruct (produces_permutation _ _ Hperm rows Hc) as [rows' [H1 H2]].
      exists rows'. split; [apply comparison_data_complete; exact H1 | exact H2].
    + intros e Hc.
      destruct (comparison_data props') as [e' | rows'] eqn:Hc'.
      * exists e'. reflexivity.
      * exfalso. apply comparison_data_OK in Hc'.
        destruct (produces_permutation _ _ (Permutation_sym Hperm) rows' Hc')
          as [rows [H1 _]].
        rewrite (comparison_data_complete _ _ H1) in Hc. discriminate Hc.
  - intros props prop e Hin Hraise.
    destruct (comparison_data props) as [e' | rows] eqn:Hc.
    + exists e'. reflexivity.
    + exfalso. apply comparison_data_OK, produces_analysable in Hc.
      rewrite Forall_forall in Hc. destruct (Hc prop Hin) as [row Hrow].
      rewrite Hrow in Hraise. discriminate Hraise.
Qed.

Lemma rows_independent_up_to_failure_witness :
  (exists rows rows',
      comparison_data [property_a; property_b] = OK rows /\
      comparison_data [property_b; property_a] = OK rows' /\
      Permutation rows rows') /\
  (exists e,
      comparison_data [property_a; property_nothing_down; property_b]
      = raise e).
Proof.
  destruct rows_independent_up_to_failure as [_ [Horder Hfail]].
  split.
  - destruct (comparison_data_defined [property_a; property_b])
      as [rows [Hc _]].
    { constructor; [exact analysable_property_a |].
      constructor; [exact analysable_property_b | constructor]. }
    destruct (Horder [property_a; property_b] [property_b; property_a]
                (perm_swap property_b property_a []))
      as [Hok _].
    destruct (Hok rows Hc) as [rows' [Hc' Hp]].
    exists rows, rows'. split; [exact Hc | split; [exact Hc' | exact Hp]].
  - apply (Hfail [property_a; property_nothing_down; property_b]
             property_nothing_down ZeroDivisionError).
    + right. left. reflexivity.
    + apply analyse_zero_investment. reflexivity.
Defined.

(** ** The recommendation classifier *)

Lemma lt_true (x y : Q) : lt x y = true <-> x < y.
Proof.
  unfold lt. rewrite negb_true_iff. split.
  - intros H. apply Qnot_le_lt. intros Hle.
    apply Qle_bool_iff in Hle. congruence.
  - intros H. destruct (Qle_bool y x) eqn:E; [| reflexivity].
    apply Qle_bool_iff in E. exfalso. exact (Qlt_not_le _ _ H E).
Qed.

Lemma rental_rule_true (roi cash_flow : Q) :
  ge roi 10 && gt cash_flow 0 = true <-> rental_rule roi cash_flow.
Proof.
  unfold rental_rule, ge, gt.
  rewrite andb_true_iff, Qle_bool_iff, lt_true. reflexivity.
Qed.

Lemma flipping_rule_true (roi : Q) (flip_profit : Z) :
  gt (inject_Z flip_profit) 0 && lt roi 10 = true <-> flipping_rule roi flip_profit.
Proof.
  unfold flipping_rule, gt.
  rewrite andb_true_iff, !lt_true.
  change 0 with (inject_Z 0) at 1. rewrite <- Zlt_Qlt. reflexivity.
Qed.

Lemma bad_buy_rule_true (roi cash_flow : Q) :
  lt roi 5 && lt cash_flow 0 = true <-> bad_buy_rule roi cash_flow.
Proof.
  unfold bad_buy_rule. rewrite andb_true_iff, !lt_true. reflexivity.
Qed.

Lemma rule_false (b : bool) (P : Prop) : (b = true <-> P) -> ~ P -> b = false.
Proof.
  intros Hiff Hn. destruct b; [| reflexivity].
  exfalso. apply Hn, Hiff. reflexivity.
Qed.

Open Scope string_scope.

(** C4: the classifier returns the label of the first rule that applies, in
    the order rental, flipping, bad buy, and the default label when none
    does; it agrees with the ordered decision table; an ROI of exactly 10
    with a positive cash flow is a rental, and an ROI of exactly 5 with a
    negative cash flow is not a bad buy. *)
Theorem classifier_first_match (roi cash_flow : Q) (flip_profit : Z) :
  let label := investment_type_recommendation roi cash_flow flip_profit in
  label = first_match decision_table default_label roi cash_flow flip_profit /\
  (rental_rule roi cash_flow -> label = "Best as a Rental") /\
  (~ rental_rule roi cash_flow -> flipping_rule roi flip_profit ->
   label = "Good for Flipping") /\
  (~ rental_rule roi cash_flow -> ~ flipping_rule roi flip_profit ->
   bad_buy_rule roi cash_flow -> label = "Bad Buy") /\
  (~ rental_rule roi cash_flow -> ~ flipping_rule roi flip_profit ->
   ~ bad_buy_rule roi cash_flow -> label = "Depends — Evaluate Further") /\
  (roi == 10 -> 0 < cash_flow -> label = "Best as a Rental") /\
  (roi == 5 -> cash_flow < 0 -> label <> "Bad Buy").
Proof.
  intros label. unfold label, investment_type_recommendation.
  pose proof (rental_rule_true roi cash_flow) as H1.
  pose proof (flipping_rule_true roi flip_profit) as H2.
  pose proof (bad_buy_rule_true roi cash_flow) as H3.
  split; [reflexivity |].
  split; [intros R1; rewrite (proj2 H1 R1); reflexivity |].
  split.
  { intros N1 R2. rewrite (rule_false _ _ H1 N1), (proj2 H2 R2). reflexivity. }
  split.
  { intros N1 N2 R3.
    rewrite (rule_false _ _ H1 N1), (rule_false _ _ H2 N2), (proj2 H3 R3).
    reflexivity. }
  split.
  { intros N1 N2 N3.
    rewrite (rule_false _ _ H1 N1), (rule_false _ _ H2 N2),
      (rule_false _ _ H3 N3).
    reflexivity. }
  split.
  { intros Hr Hc. rewrite (proj2 H1); [reflexivity |].
    split; [rewrite Hr; apply Qle_refl | exact Hc]. }
  intros Hr Hc.
  assert (N3 : ~ bad_buy_rule roi cash_flow).
  { intros [Hlt _]. rewrite Hr in Hlt. discriminate Hlt. }
  rewrite (rule_false _ _ H3 N3).
  destruct (ge roi 10 && gt cash_flow 0);
    [discriminate |
     destruct (gt (inject_Z flip_profit) 0 && lt roi 10); discriminate].
Qed.

Lemma classifier_first_match_witness :
  investment_type_recommendation 10 (1 # 100) 0 = "Best as a Rental" /\
  investment_type_recommendation (499 # 100) (-1) 1 = "Good for Flipping" /\
  investment_type_recommendation (499 # 100) (-1) 0 = "Bad Buy" /\
  investment_type_recommendation 7 0 0 = "Depends — Evaluate Further" /\
  investment_type_recommendation 5 (-1) 0 <> "Bad Buy".
Proof.
  split.
  { destruct (classifier_first_match 10 (1 # 100) 0)
      as [_ [_ [_ [_ [_ [H _]]]]]].
    apply H; reflexivity. }
  split.
  { destruct (classifier_first_match (499 # 100) (-1) 1)
      as [_ [_ [H _]]].
    apply H.
    - intros [H1 _]. apply H1. reflexivity.
    - split; reflexivity. }
  split.
  { destruct (classifier_first_match (499 # 100) (-1) 0)
      as [_ [_ [_ [H _]]]].
    apply H.
    - intros [H1 _]. apply H1. reflexivity.
    - intros [H2 _]. discriminate H2.
    - split; reflexivity. }
  split.
  { destruct (classifier_first_match 7 0 0)
      as [_ [_ [_ [_ [H _]]]]].
    apply H.
    - intros [H1 _]. apply H1. reflexivity.
    - intros [H2 _]. discriminate H2.
    - intros [H3 _]. discriminate H3. }
  destruct (classifier_first_match 5 (-1) 0)
    as [_ [_ [_ [_ [_ [_ H]]]]]].
  apply H; reflexivity.
Defined.

Close Scope string_scope.

(** ** The rent estimate *)

(** C7: the rent range is the square footage times 1.10 and times 1.30, and
    the ZIP code has no part in it. *)
Theorem rent_estimate_ignores_zip (sqft : Z) (zip_code zip_code' : string) :
  smart_rent_estimate sqft zip_code
  = (inject_Z sqft * (11 # 10), inject_Z sqft * (13 # 10)) /\
  11 # 10 == 110 # 100 /\ 13 # 10 == 130 # 100 /\
  smart_rent_estimate sqft zip_code = smart_rent_estimate sqft zip_code'.
Proof.
  repeat split; reflexivity.
Qed.

(** ** Rounding *)

Lemma metrics_OK_inv (prop : PropertyInput) (m : Metrics) :
  metrics prop = OK m ->
  exists payment gain,
    mortgage prop = OK payment /\
    appreciation_gain prop = OK gain /\
    total_monthly m =
      payment + inject_Z (Tax prop) / 12 + inject_Z (Insurance prop) / 12
      + inject_Z (Maint prop) /\
    net_rent m = inject_Z (Rent prop) * (1 - Vacancy prop) /\
    cash_flow m = net_rent m - total_monthly m /\
    annual_cf m = cash_flow m * 12 /\
    roi m =
      (annual_cf m * inject_Z (Hold prop) + gain)
      / inject_Z (total_invested prop) * 100 /\
    flip_profit m = (Resale prop - Price prop - Rehab prop)%Z.
Proof.
  intros H. unfold metrics in H.
  apply bind_OK_inv in H. destruct H as [payment [Hp H]].
  rewrite !truediv_const in H. simpl bind in H.
  apply bind_OK_inv in H. destruct H as [gain [Hg H]].
  apply bind_OK_inv in H. destruct H as [q [Hq H]].
  unfold truediv in Hq.
  destruct (Qeq_bool (inject_Z (total_invested prop)) 0); [discriminate Hq |].
  injection Hq as <-. injection H as <-.
  exists payment, gain. simpl. repeat split; assumption || reflexivity.
Qed.

Lemma lt_false (x y : Q) : lt x y = false <-> y <= x.
Proof.
  unfold lt. rewrite negb_false_iff. apply Qle_bool_iff.
Qed.

Lemma round_half_even_error (x : Q) :
  - (1 # 2) <= inject_Z (round_half_even x) - x /\
  inject_Z (round_half_even x) - x <= 1 # 2.
Proof.
  unfold round_half_even.
  pose proof (Qfloor_le x) as Hlo. pose proof (Qlt_floor x) as Hhi.
  rewrite inject_Z_plus in Hhi. change (inject_Z 1) with 1 in Hhi.
  set (f := Qfloor x) in *.
  destruct (lt (x - inject_Z f) (1 # 2)) eqn:E1.
  { apply lt_true in E1. split; lra. }
  apply lt_false in E1.
  destruct (lt (1 # 2) (x - inject_Z f)) eqn:E2.
  { apply lt_true in E2. rewrite inject_Z_plus.
    change (inject_Z 1) with 1. split; lra. }
  apply lt_false in E2.
  destruct (Z.even f).
  - split; lra.
  - rewrite inject_Z_plus. change (inject_Z 1) with 1. split; lra.
Qed.

Lemma round2_error (x : Q) : Qabs (round2 x - x) <= 1 # 200.
Proof.
  apply Qabs_Qle_condition. unfold round2.
  destruct (round_half_even_error (x * 100)) as [Hlo Hhi].
  set (k := inject_Z (round_half_even (x * 100))) in *.
  unfold Qdiv. change (/ 100) with (1 # 100). split; lra.
Qed.

Lemma round_half_even_Z (x : Q) (k : Z) :
  x == inject_Z k -> round_half_even x = k.
Proof.
  intros H.
  assert (Hf : Qfloor x = k) by (rewrite H; apply Qfloor_Z).
  unfold round_half_even. rewrite Hf.
  assert (E : lt (x - inject_Z k) (1 # 2) = true)
    by (apply lt_true; rewrite H; lra).
  rewrite E. reflexivity.
Qed.

Lemma round2_cents (n : Z) : round2 (inject_Z n / 100) = inject_Z n / 100.
Proof.
  unfold round2. rewrite (round_half_even_Z _ n); [reflexivity |].
  unfold Qdiv. change (/ 100) with (1 # 100). ring.
Qed.

Lemma round_half_even_tie (x : Q) :
  Qabs (inject_Z (round_half_even x) - x) == 1 # 2 ->
  Z.even (round_half_even x) = true.
Proof.
  unfold round_half_even.
  pose proof (Qfloor_le x) as Hlo. pose proof (Qlt_floor x) as Hhi.
  rewrite inject_Z_plus in Hhi. change (inject_Z 1) with 1 in Hhi.
  set (f := Qfloor x) in *.
  destruct (lt (x - inject_Z f) (1 # 2)) eqn:E1.
  { apply lt_true in E1. intros H. exfalso.
    rewrite Qabs_neg in H by lra. lra. }
  apply lt_false in E1.
  destruct (lt (1 # 2) (x - inject_Z f)) eqn:E2.
  { apply lt_true in E2. intros H. exfalso.
    rewrite inject_Z_plus in H. change (inject_Z 1) with 1 in H.
    rewrite Qabs_pos in H by lra. lra. }
  destruct (Z.even f) eqn:Ef; intros _.
  - exact Ef.
  - rewrite Z.even_add, Ef. reflexivity.
Qed.

Lemma round2_rounded (x : Q) : rounded_to_cents x (round2 x).
Proof.
  exists (round_half_even (x * 100)). split; [reflexivity |]. split.
  - apply Qabs_Qle_condition.
    destruct (round_half_even_error (x * 100)) as [Hlo Hhi]. split; lra.
  - apply round_half_even_tie.
Qed.

Lemma pow_OK_inv (x : Q) (n : Z) (v : Q) : pow x n = OK v -> v = x ^ n.
Proof.
  destruct n as [| p | p]; simpl; intros H.
  - injection H as <-. reflexivity.
  - injection H as <-. reflexivity.
  - destruct (Qeq_bool x 0); [discriminate H |].
    injection H as <-. reflexivity.
Qed.

Lemma mortgage_OK_inv (prop : PropertyInput) (payment : Q) :
  mortgage prop = OK payment ->
  payment =
    inject_Z (loan_amt prop)
    * (Interest prop / 12 / 100
       * (1 + Interest prop / 12 / 100) ^ months prop)
    / ((1 + Interest prop / 12 / 100) ^ months prop - 1).
Proof.
  intros H. unfold mortgage in H.
  rewrite monthly_interest_OK in H. simpl bind in H.
  apply bind_OK_inv in H. destruct H as [g [Hg H]].
  apply bind_OK_inv in H. destruct H as [g' [Hg' H]].
  apply pow_OK_inv in Hg, Hg'. subst g g'.
  unfold truediv in H.
  destruct (Qeq_bool ((1 + Interest prop / 12 / 100) ^ months prop - 1) 0);
    [discriminate H |].
  injection H as <-. reflexivity.
Qed.

Lemma appreciation_gain_OK_inv (prop : PropertyInput) (gain : Q) :
  appreciation_gain prop = OK gain ->
  gain =
    inject_Z (Price prop) * (1 + Appreciation prop / 100) ^ Hold prop
    - inject_Z (Price prop).
Proof.
  intros H. unfold appreciation_gain in H.
  rewrite truediv_const in H. simpl bind in H.
  apply bind_OK_inv in H. destruct H as [g [Hg H]].
  apply pow_OK_inv in Hg. subst g.
  injection H as <-. reflexivity.
Qed.

(** C9: every row the loop produces is built from the unrounded metrics,
    each a formula of the inputs alone with no rounding on the way: the
    five float figures of the row are those metrics rounded to two decimals
    (a whole number of cents, at most half a cent off, ties to the even
    cent), the flip profit is the integer difference itself, and the
    classifier and the summary are fed the unrounded ROI, cash flows and net
    rent. *)
Theorem rounded_only_at_presentation (prop : PropertyInput) (row : Row) :
  analyse prop = OK row ->
  let r := Interest prop / 12 / 100 in
  let g := (1 + r) ^ months prop in
  let payment := inject_Z (loan_amt prop) * (r * g) / (g - 1) in
  let MonthlyCost :=
    payment + inject_Z (Tax prop) / 12 + inject_Z (Insurance prop) / 12
    + inject_Z (Maint prop) in
  let NetMonthlyRent := inject_Z (Rent prop) * (1 - Vacancy prop) in
  let MonthlyCashFlow := NetMonthlyRent - MonthlyCost in
  let AnnualCashFlow := MonthlyCashFlow * 12 in
  let AppreciationGain :=
    inject_Z (Price prop) * (1 + Appreciation prop / 100) ^ Hold prop
    - inject_Z (Price prop) in
  let ROIPercent :=
    (AnnualCashFlow * inject_Z (Hold prop) + AppreciationGain)
    / inject_Z (total_invested prop) * 100 in
  let FlipProfit := (Resale prop - Price prop - Rehab prop)%Z in
  rounded_to_cents MonthlyCost (Monthly_Cost row) /\
  rounded_to_cents NetMonthlyRent (Net_Rent row) /\
  rounded_to_cents MonthlyCashFlow (Cash_Flow row) /\
  rounded_to_cents AnnualCashFlow (Annual_Profit row) /\
  rounded_to_cents ROIPercent (ROI_pct row) /\
  Flip_Profit row = FlipProfit /\
  Investment_Type row =
    investment_type_recommendation ROIPercent MonthlyCashFlow FlipProfit /\
  Summary row =
    smart_summary (Name prop) ROIPercent AnnualCashFlow NetMonthlyRent.
Proof.
  intros H. unfold analyse in H.
  apply bind_OK_inv in H. destruct H as [m [Hm H]].
  injection H as <-.
  destruct (metrics_OK_inv prop m Hm)
    as [payment [gain [Hp [Hg [Ht [Hn [Hc [Ha [Hr Hf]]]]]]]]].
  apply mortgage_OK_inv in Hp. apply appreciation_gain_OK_inv in Hg.
  destruct m as [tm nr cf acf ro fp].
  cbn [total_monthly net_rent cash_flow annual_cf roi flip_profit] in *.
  subst payment gain. subst tm nr. subst cf. subst acf. subst ro fp.
  unfold make_row, smart_rent_estimate.
  cbn [Monthly_Cost Net_Rent Cash_Flow Annual_Profit ROI_pct Flip_Profit
       Investment_Type Summary total_monthly net_rent cash_flow annual_cf
       roi flip_profit].
  repeat split; apply round2_rounded.
Qed.

Lemma rounded_only_at_presentation_witness :
  exists row,
    analyse property_b = OK row /\
    rounded_to_cents
      (inject_Z (Rent property_b) * (1 - Vacancy property_b))
      (Net_Rent row) /\
    Flip_Profit row = 20000%Z.
Proof.
  destruct analysable_property_b as [row Hrow].
  destruct (rounded_only_at_presentation property_b row Hrow)
    as [_ [Hn [_ [_ [_ [Hf _]]]]]].
  exists row. split; [exact Hrow | split; [exact Hn | exact Hf]].
Defined.

Open Scope string_scope.

(** Rounding the ROI before classifying would change the label: the row of
    [property_edge] shows an ROI of 10.00, yet it is classified on its
    unrounded ROI of 9.996. *)
Example rounded_roi_not_classified :
  match analyse property_edge with
  | inr row =>
      ROI_pct row == 10 /\
      Investment_Type row = "Depends — Evaluate Further" /\
      investment_type_recommendation
        (ROI_pct row) (Cash_Flow row) (Flip_Profit row)
      = "Best as a Rental"
  | inl _ => False
  end.
Proof.
  vm_compute. repeat split.
Qed.

Close Scope string_scope.

(** ** The summary *)

Open Scope string_scope.

Lemma endswith_refl (s : string) : endswith s s = true.
Proof.
  destruct s; cbn [endswith]; rewrite String.eqb_refl; reflexivity.
Qed.

Lemma endswith_app (a s suffix : string) :
  endswith s suffix = true -> endswith (a ++ s) suffix = true.
Proof.
  intros H. induction a as [| c a IH]; cbn [append endswith].
  - exact H.
  - rewrite IH. apply orb_true_r.
Qed.

Lemma smart_summary_compelling (name : string) (roi annual_cf net_rent : Q) :
  endswith (smart_summary name roi annual_cf net_rent)
           "making it a compelling investment." = true.
Proof.
  unfold smart_summary.
  repeat apply endswith_app.
  apply endswith_refl.
Qed.

(** C10: whatever the name and the figures, the summary ends with
    "making it a compelling investment."; so does the summary of every row
    the loop produces, money-losing properties included. *)
Theorem summary_always_compelling :
  (forall (name : string) (roi annual_cf net_rent : Q),
      endswith (smart_summary name roi annual_cf net_rent)
               "making it a compelling investment." = true) /\
  (forall (prop : PropertyInput) (row : Row),
      analyse prop = OK row ->
      endswith (Summary row) "making it a compelling investment." = true).
Proof.
  split; [exact smart_summary_compelling |].
  intros prop row H. unfold analyse in H.
  apply bind_OK_inv in H. destruct H as [m [_ H]].
  injection H as <-. apply smart_summary_compelling.
Qed.

Lemma summary_always_compelling_witness :
  exists row,
    analyse property_loss = OK row /\
    endswith (Summary row) "making it a compelling investment." = true.
Proof.
  assert (Ha : analysable property_loss).
  { apply analysable_positive_rate;
      [reflexivity | reflexivity | discriminate | discriminate]. }
  destruct Ha as [row Hrow].
  exists row. split; [exact Hrow |].
  exact (proj2 summary_always_compelling property_loss row Hrow).
Defined.

(** A property with a negative cash flow and a negative ROI is still
    summarised as a compelling investment. *)
Example losing_property_compelling :
  match analyse property_loss with
  | inr row =>
      Cash_Flow row < 0 /\
      ROI_pct row < 0 /\
      Investment_Type row = "Bad Buy" /\
      endswith (Summary row) "making it a compelling investment." = true
  | inl _ => False
  end.
Proof.
  vm_compute. repeat split.
Qed.

Close Scope string_scope.

(** * Further properties of the analysis *)

(** ** Amortization: edge cases and size of the payment *)

(** A loan term of zero years makes the mortgage line divide by
    [(1+r)^0 - 1 = 0], whatever the rate: it raises ZeroDivisionError and so
    does the analysis of the property. *)
Theorem zero_term_raises (prop : PropertyInput) :
  LoanTerm prop = 0%Z ->
  mortgage prop = raise ZeroDivisionError /\
  analyse prop = raise ZeroDivisionError.
Proof.
  intros Ht.
  assert (Hm : mortgage prop = raise ZeroDivisionError).
  { unfold mortgage, months. rewrite Ht. reflexivity. }
  split; [exact Hm | apply metrics_mortgage_raise; exact Hm].
Qed.

Lemma zero_term_raises_witness :
  LoanTerm property_zero_term = 0%Z /\
  analyse property_zero_term = raise ZeroDivisionError.
Proof.
  split; [reflexivity |].
  apply (zero_term_raises property_zero_term). reflexivity.
Defined.

Lemma Qpower_positive_succ (x : Q) (p : positive) :
  Qpower_positive x (Pos.succ p) == x * Qpower_positive x p.
Proof.
  rewrite <- Pos.add_1_l, Qpower_plus_positive. reflexivity.
Qed.

(** Compound growth stays under [n] times the last period's interest. *)
Lemma growth_below_simple_interest (r : Q) (p : positive) :
  0 < r ->
  1 < Qpower_positive (1 + r) p /\
  Qpower_positive (1 + r) p - 1
  < inject_Z (Zpos p) * (r * Qpower_positive (1 + r) p).
Proof.
  intros Hr. induction p as [| p [IH1 IH]] using Pos.peano_ind.
  - change (Qpower_positive (1 + r) 1) with (1 + r).
    change (inject_Z 1) with 1.
    assert (0 < r * r) by (apply Qmult_lt_0_compat; assumption).
    split; lra.
  - rewrite Qpower_positive_succ.
    set (G := Qpower_positive (1 + r) p) in *.
    rewrite Pos2Z.inj_succ. unfold Z.succ. rewrite inject_Z_plus.
    change (inject_Z 1) with 1.
    set (N := inject_Z (Z.pos p)) in *.
    assert (HN : 0 < N) by reflexivity.
    assert (HrG : 0 < r * G) by (apply Qmult_lt_0_compat; lra).
    assert (HrrG : 0 < r * (r * G)) by (apply Qmult_lt_0_compat; lra).
    assert (HNrrG : 0 < N * (r * (r * G)))
      by (apply Qmult_lt_0_compat; assumption).
    split; lra.
Qed.

Lemma payment_size (P r g N : Q) :
  0 < P -> 0 < r -> 1 < g -> g - 1 < N * (r * g) ->
  P * r < P * (r * g) / (g - 1) /\ P < N * (P * (r * g) / (g - 1)).
Proof.
  intros HP Hr Hg HN.
  assert (HPr : 0 < P * r) by (apply Qmult_lt_0_compat; assumption).
  assert (Hd : 0 < g - 1) by lra.
  split.
  - apply Qlt_shift_div_l; [exact Hd |]. lra.
  - assert (Heq : N * (P * (r * g) / (g - 1)) == N * (P * (r * g)) / (g - 1))
      by (unfold Qdiv; ring).
    rewrite Heq. apply Qlt_shift_div_l; [exact Hd |].
    assert (H : P * (g - 1) < P * (N * (r * g)))
      by (apply Qmult_lt_l; assumption).
    lra.
Qed.

(** With a positive loan, rate and term, the monthly payment is more than
    one month's interest on the whole loan, and the payments over the term
    add up to more than the amount borrowed. *)
Theorem mortgage_repays_more (prop : PropertyInput) :
  (0 < loan_amt prop)%Z -> 0 < Interest prop -> (0 < LoanTerm prop)%Z ->
  exists payment,
    mortgage prop = OK payment /\
    inject_Z (loan_amt prop) * (Interest prop / 12 / 100) < payment /\
    inject_Z (loan_amt prop) < inject_Z (months prop) * payment.
Proof.
  intros HP Hi Ht.
  destruct (mortgage_positive_rate prop Hi Ht) as [Hg Hm].
  eexists. split; [exact Hm |].
  assert (Hr : 0 < Interest prop / 12 / 100).
  { apply Qlt_shift_div_l; [reflexivity |].
    apply Qlt_shift_div_l; [reflexivity |]. lra. }
  assert (Hmonths : (0 < months prop)%Z) by (unfold months; lia).
  destruct (months prop) as [| p | p] eqn:Hp; try discriminate Hmonths.
  change ((1 + Interest prop / 12 / 100) ^ Z.pos p)
    with (Qpower_positive (1 + Interest prop / 12 / 100) p) in *.
  destruct (growth_below_simple_interest _ p Hr) as [_ Hbelow].
  apply payment_size; try assumption.
  change 0 with (inject_Z 0). rewrite <- Zlt_Qlt. exact HP.
Qed.

Lemma mortgage_repays_more_witness :
  exists payment,
    mortgage property_a = OK payment /\
    inject_Z (loan_amt property_a) < inject_Z (months property_a) * payment.
Proof.
  destruct (mortgage_repays_more property_a) as [payment [Hm [_ Hn]]];
    [reflexivity | reflexivity | reflexivity |].
  exists payment. split; [exact Hm | exact Hn].
Defined.

(** A cash purchase (nothing borrowed) at a positive rate and term has a
    mortgage payment of zero. *)
Theorem cash_purchase_pays_nothing (prop : PropertyInput) :
  loan_amt prop = 0%Z -> 0 < Interest prop -> (0 < LoanTerm prop)%Z ->
  exists payment, mortgage prop = OK payment /\ payment == 0.
Proof.
  intros HP Hi Ht.
  destruct (mortgage_positive_rate prop Hi Ht) as [_ Hm].
  eexists. split; [exact Hm |].
  rewrite HP. unfold Qdiv. change (inject_Z 0) with 0. ring.
Qed.

Lemma cash_purchase_pays_nothing_witness :
  exists payment, mortgage property_cash = OK payment /\ payment == 0.
Proof.
  apply (cash_purchase_pays_nothing property_cash); reflexivity.
Defined.

(** ** When the analysis of a property succeeds *)

(** For a property with a non-negative rate, a positive term and a
    non-negative hold period, the analysis yields a row exactly when the rate
    is positive and the amount invested is not zero; in the two other cases
    it raises. *)
Theorem analysable_iff (prop : PropertyInput) :
  0 <= Interest prop -> (0 < LoanTerm prop)%Z -> (0 <= Hold prop)%Z ->
  (analysable prop <-> 0 < Interest prop /\ total_invested prop <> 0%Z).
Proof.
  intros Hi Ht Hh. split.
  - intros [row Hrow]. split.
    + apply Qle_lteq in Hi. destruct Hi as [Hlt | Heq]; [exact Hlt |].
      rewrite (metrics_mortgage_raise prop ZeroDivisionError) in Hrow.
      * discriminate Hrow.
      * apply mortgage_zero_rate. symmetry. exact Heq.
    + intros Hz. rewrite (analyse_zero_investment prop Hz) in Hrow.
      discriminate Hrow.
  - intros [Hpos Hz]. apply analysable_positive_rate; assumption.
Qed.

Lemma analysable_iff_witness :
  analysable property_a /\ ~ analysable property_zero_rate.
Proof.
  split.
  - apply (analysable_iff property_a);
      [discriminate | reflexivity | discriminate |].
    split; [reflexivity | discriminate].
  - intros H.
    apply (analysable_iff property_zero_rate) in H;
      [| discriminate | reflexivity | discriminate].
    destruct H as [H _]. discriminate H.
Defined.

(** ** The labels of the classifier *)

Ltac rule_cases H b :=
  let R := fresh "R" in
  destruct b;
  [ pose proof (proj1 H eq_refl) as R
  | assert (R : _) by
      (exact (fun r => Bool.diff_false_true (proj2 H r))) ];
  clear H.

Open Scope string_scope.

(** The classifier returns one of its four labels.  It says rental exactly
    when the rental rule holds, flipping exactly when the flipping rule
    holds (the rental rule cannot hold with it), and bad buy exactly when the
    bad-buy rule holds and the flip profit is not positive: a property with a
    positive flip profit is never called a bad buy. *)
Theorem label_characterisation (roi cash_flow : Q) (flip_profit : Z) :
  let label := investment_type_recommendation roi cash_flow flip_profit in
  (label = "Best as a Rental" \/ label = "Good for Flipping" \/
   label = "Bad Buy" \/ label = "Depends — Evaluate Further") /\
  (label = "Best as a Rental" <-> rental_rule roi cash_flow) /\
  (label = "Good for Flipping" <-> flipping_rule roi flip_profit) /\
  (label = "Bad Buy" <->
   bad_buy_rule roi cash_flow /\ (flip_profit <= 0)%Z).
Proof.
  intros label. unfold label, investment_type_recommendation.
  pose proof (rental_rule_true roi cash_flow) as H1.
  pose proof (flipping_rule_true roi flip_profit) as H2.
  pose proof (bad_buy_rule_true roi cash_flow) as H3.
  destruct (Z_lt_le_dec 0 flip_profit) as [Hfp | Hfp].
  all: rule_cases H1 (ge roi 10 && gt cash_flow 0).
  all: rule_cases H2 (gt (inject_Z flip_profit) 0 && lt roi 10).
  all: rule_cases H3 (lt roi 5 && lt cash_flow 0).
  all: unfold rental_rule, flipping_rule, bad_buy_rule in *.
  all: split; [tauto |].
  all: repeat split; intros; try discriminate; try reflexivity;
    try assumption; try lia; try lra; try tauto.
  all: try (exfalso; lra).
  all: try (exfalso; intuition lra).
  all: try (exfalso; intuition lia).
Qed.

Lemma label_characterisation_witness :
  investment_type_recommendation 12 100 0 = "Best as a Rental" /\
  investment_type_recommendation 3 (-100) 5000 <> "Bad Buy".
Proof.
  split.
  - destruct (label_characterisation 12 100 0) as [_ [H _]].
    apply H. split; [discriminate | reflexivity].
  - destruct (label_characterisation 3 (-100) 5000) as [_ [_ [_ H]]].
    intros Hbad. apply H in Hbad. destruct Hbad as [_ Hfp].
    apply Hfp. reflexivity.
Defined.

Close Scope string_scope.

(** ** Rounding of the displayed figures *)

(** Each of the five rounded figures of a row is within half a cent of the
    unrounded value the loop computed. *)
Theorem row_within_half_cent (prop : PropertyInput) (row : Row) :
  analyse prop = OK row ->
  exists m,
    metrics prop = OK m /\
    Qabs (Monthly_Cost row - total_monthly m) <= 1 # 200 /\
    Qabs (Net_Rent row - net_rent m) <= 1 # 200 /\
    Qabs (Cash_Flow row - cash_flow m) <= 1 # 200 /\
    Qabs (Annual_Profit row - annual_cf m) <= 1 # 200 /\
    Qabs (ROI_pct row - roi m) <= 1 # 200.
Proof.
  intros H. unfold analyse in H.
  apply bind_OK_inv in H. destruct H as [m [Hm H]].
  injection H as <-. exists m. split; [exact Hm |].
  unfold make_row, smart_rent_estimate.
  cbn [Monthly_Cost Net_Rent Cash_Flow Annual_Profit ROI_pct].
  repeat split; apply round2_error.
Qed.

Lemma row_within_half_cent_witness :
  exists row m,
    analyse property_b = OK row /\
    metrics property_b = OK m /\
    Qabs (ROI_pct row - roi m) <= 1 # 200.
Proof.
  destruct analysable_property_b as [row Hrow].
  destruct (row_within_half_cent property_b row Hrow)
    as [m [Hm [_ [_ [_ [_ Hr]]]]]].
  exists row, m. split; [exact Hrow | split; [exact Hm | exact Hr]].
Defined.

(** Rounding to two decimals leaves a whole number of cents unchanged, so
    rounding a figure that is already rounded changes nothing. *)
Theorem round2_idempotent (x : Q) (n : Z) :
  round2 (inject_Z n / 100) = inject_Z n / 100 /\
  round2 (round2 x) = round2 x.
Proof.
  split; [apply round2_cents |].
  unfold round2 at 2 3. apply round2_cents.
Qed.

(** ** The rent estimate *)

(** The estimated range is a fifth of the floor area wide: its low end is
    below its high end for a non-negative area, and above it for a negative
    area, which the estimator accepts. *)
Theorem rent_range_order (sqft : Z) (zip_code : string) :
  let low := fst (smart_rent_estimate sqft zip_code) in
  let high := snd (smart_rent_estimate sqft zip_code) in
  high - low == inject_Z sqft * (1 # 5) /\
  ((0 <= sqft)%Z -> low <= high) /\
  ((sqft < 0)%Z -> high < low).
Proof.
  intros low high. unfold low, high, smart_rent_estimate, low_rate, high_rate.
  cbn [fst snd]. split; [ring |]. split; intros H.
  - rewrite Zle_Qle in H. change (inject_Z 0) with 0 in H. lra.
  - rewrite Zlt_Qlt in H. change (inject_Z 0) with 0 in H. lra.
Qed.

Lemma rent_range_order_witness :
  fst (smart_rent_estimate 1500 "12345") <= snd (smart_rent_estimate 1500 "12345") /\
  snd (smart_rent_estimate (-10) "12345") < fst (smart_rent_estimate (-10) "12345").
Proof.
  split.
  - apply (rent_range_order 1500 "12345"). discriminate.
  - apply (rent_range_order (-10) "12345"). reflexivity.
Defined.

(** ** The loop over a growing list *)

Lemma for_each_acc (props : list PropertyInput) :
  forall acc,
    for_each props acc = (rows <- for_each props [] ;; OK (acc ++ rows)).
Proof.
  induction props as [| prop rest IH]; intros acc; cbn [for_each].
  - cbn [bind OK]. rewrite app_nil_r. reflexivity.
  - destruct (analyse prop) as [e | row]; cbn [bind]; [reflexivity |].
    rewrite (IH (acc ++ [row])), (IH ([] ++ [row])).
    destruct (for_each rest []) as [e | rows]; cbn [bind OK]; [reflexivity |].
    rewrite <- app_assoc. reflexivity.
Qed.

Lemma for_each_app (xs ys : list PropertyInput) :
  forall acc,
    for_each (xs ++ ys) acc = (rows <- for_each xs acc ;; for_each ys rows).
Proof.
  induction xs as [| prop rest IH]; intros acc; cbn [for_each app].
  - reflexivity.
  - destruct (analyse prop) as [e | row]; cbn [bind]; [reflexivity |].
    apply IH.
Qed.

(** Analysing two lists one after the other is analysing their
    concatenation: the rows of the first followed by the rows of the second,
    or the first error met. *)
Theorem comparison_data_app (xs ys : list PropertyInput) :
  comparison_data (xs ++ ys) =
  (rows <- comparison_data xs ;;
   rows' <- comparison_data ys ;;
   OK (rows ++ rows')).
Proof.
  unfold comparison_data. rewrite for_each_app.
  destruct (for_each xs []) as [e | rows]; cbn [bind]; [reflexivity |].
  apply for_each_acc.
Qed.

Lemma comparison_data_single (prop : PropertyInput) :
  comparison_data [prop] = (row <- analyse prop ;; OK [row]).
Proof. reflexivity. Qed.

(** Pressing "Add Property" on a list whose comparison succeeds: if the new
    entry analyses, the comparison keeps the rows it had and gains the new
    row at the end; if the new entry's analysis raises, the whole comparison
    raises that error.  Without the button press the list is unchanged. *)
Theorem add_property_comparison
    (form : Sidebar.Form) (props : list PropertyInput) (rows : list Row) :
  comparison_data props = OK rows ->
  (forall row,
      analyse (entry form) = OK row ->
      comparison_data (add_property true form props) = OK (rows ++ [row])) /\
  (forall e,
      analyse (entry form) = raise e ->
      comparison_data (add_property true form props) = raise e) /\
  add_property false form props = props.
Proof.
  intros Hc.
  assert (H : comparison_data (add_property true form props)
              = (row <- analyse (entry form) ;; OK (rows ++ [row]))).
  { cbn [add_property]. rewrite comparison_data_app, Hc. cbn [bind OK].
    rewrite comparison_data_single.
    destruct (analyse (entry form)); reflexivity. }
  split; [| split].
  - intros row Hrow. rewrite H, Hrow. reflexivity.
  - intros e He. rewrite H, He. reflexivity.
  - reflexivity.
Qed.

Lemma add_property_comparison_witness :
  exists rows row,
    comparison_data [property_b] = OK rows /\
    rows <> [] /\
    analyse (entry default_form) = OK row /\
    comparison_data (add_property true default_form [property_b])
    = OK (rows ++ [row]) /\
    comparison_data (add_property true zero_rate_form [property_b])
    = raise ZeroDivisionError.
Proof.
  destruct (comparison_data_defined [property_b]) as [rows [Hc Hrows]].
  { constructor; [exact analysable_property_b | constructor]. }
  assert (Ha : analysable (entry default_form)).
  { apply analysable_positive_rate;
      [reflexivity | reflexivity | discriminate | discriminate]. }
  destruct Ha as [row Hrow].
  destruct (add_property_comparison default_form [property_b] rows Hc)
    as [Hadd _].
  destruct (add_property_comparison zero_rate_form [property_b] rows Hc)
    as [_ [Hfail _]].
  exists rows, row.
  split; [exact Hc |]. split.
  { intros ->. inversion Hrows. }
  split; [exact Hrow |]. split.
  - apply Hadd. exact Hrow.
  - apply Hfail. apply metrics_mortgage_raise, mortgage_zero_rate. reflexivity.
Defined.

Lemma add_properties_app (forms : list Sidebar.Form) :
  forall props, add_properties forms props = props ++ map entry forms.
Proof.
  unfold add_properties.
  induction forms as [| form rest IH]; intros props; cbn [fold_left map].
  - symmetry. apply app_nil_r.
  - rewrite IH. cbn [add_property]. rewrite <- app_assoc. reflexivity.
Qed.

(** Once the stored list makes the comparison raise, it raises on every
    later run, whatever properties are added afterwards: the list only grows,
    and the page never gets back to a comparison or to the warning. *)
Theorem failure_is_permanent
    (props : list PropertyInput) (forms : list Sidebar.Form) (e : PyError) :
  comparison_data props = raise e ->
  comparison_data (add_properties forms props) = raise e /\
  render (add_properties forms props) = raise e.
Proof.
  intros Hc.
  assert (H : comparison_data (add_properties forms props) = raise e).
  { rewrite add_properties_app, comparison_data_app, Hc. reflexivity. }
  split; [exact H |].
  unfold render. destruct (add_properties forms props) as [| p l].
  - discriminate H.
  - rewrite H. reflexivity.
Qed.

Lemma failure_is_permanent_witness :
  render (add_properties [default_form; default_form] [property_zero_rate])
  = raise ZeroDivisionError.
Proof.
  apply (failure_is_permanent [property_zero_rate]
           [default_form; default_form] ZeroDivisionError).
  rewrite comparison_data_single.
  rewrite (metrics_mortgage_raise property_zero_rate ZeroDivisionError);
    [reflexivity |].
  apply mortgage_zero_rate. reflexivity.
Defined.

(** ** The vacancy slider *)

(** The slider keeps the vacancy between 0 and 20 percent, so for an entry
    made from the form with a non-negative rent the net rent lies between
    80% of the expected rent and the expected rent. *)
Theorem slider_net_rent (form : Sidebar.Form) (m : Metrics) :
  (0 <= Sidebar.vacancy form <= 20)%Z ->
  (0 <= Sidebar.rent_est form)%Z ->
  metrics (entry form) = OK m ->
  (4 # 5) * inject_Z (Sidebar.rent_est form) <= net_rent m /\
  net_rent m <= inject_Z (Sidebar.rent_est form).
Proof.
  intros [Hv0 Hv20] Hr Hm.
  destruct (metrics_OK_inv _ _ Hm) as [payment [gain [_ [_ [_ [Hn _]]]]]].
  cbn [entry Rent Vacancy] in Hn. rewrite Hn.
  rewrite Zle_Qle in Hv0, Hv20, Hr.
  change (inject_Z 0) with 0 in *. change (inject_Z 20) with 20 in *.
  set (v := inject_Z (Sidebar.vacancy form)) in *.
  set (R := inject_Z (Sidebar.rent_est form)) in *.
  assert (H1 : 0 <= R * v) by (apply Qmult_le_0_compat; assumption).
  assert (H2 : 0 <= R * (20 - v)) by (apply Qmult_le_0_compat; lra).
  unfold Qdiv. change (/ 100) with (1 # 100). split; lra.
Qed.

Lemma slider_net_rent_witness :
  exists m,
    metrics (entry default_form) = OK m /\
    (4 # 5) * 1800 <= net_rent m /\ net_rent m <= 1800.
Proof.
  destruct (mortgage_positive_rate (entry default_form)) as [_ Hp];
    [reflexivity | reflexivity |].
  destruct (metrics_defined (entry default_form) _ Hp) as [m [Hm _]];
    [discriminate | discriminate |].
  exists m. split; [exact Hm |].
  apply (slider_net_rent default_form m);
    [split; discriminate | discriminate | exact Hm].
Defined.

(** ** What the page shows *)

Lemma produces_identity (prop : PropertyInput) (row : Row) :
  produces prop row ->
  row_Name row = Name prop /\ row_Address row = Address prop /\
  row_ZIP row = ZIP prop /\ row_Image row = Image prop.
Proof.
  unfold produces, analyse. intros H.
  apply bind_OK_inv in H. destruct H as [m [_ H]].
  injection H as <-. repeat split.
Qed.

(** When the comparison succeeds, the rows carry over the name, address,
    ZIP code and image URL of the stored properties, in insertion order and
    with duplicates kept; so the name column and the ROI column handed to the
    bar-chart call each have one entry per stored property. *)
Theorem rows_carry_identity (props : list PropertyInput) (rows : list Row) :
  comparison_data props = OK rows ->
  map row_Name rows = map Name props /\
  map row_Address rows = map Address props /\
  map row_ZIP rows = map ZIP props /\
  map row_Image rows = map Image props /\
  fst (bar_columns rows) = map Name props /\
  length (snd (bar_columns rows)) = length props.
Proof.
  intros H. apply comparison_data_OK in H.
  unfold bar_columns. cbn [fst snd]. rewrite length_map.
  induction H as [| prop row props' rows' Hp Hall IH]; cbn [map length].
  - repeat split.
  - destruct (produces_identity prop row Hp) as [Hn [Ha [Hz Hi]]].
    destruct IH as [IHn [IHa [IHz [IHi [_ IHl]]]]].
    rewrite Hn, Ha, Hz, Hi, IHn, IHa, IHz, IHi, IHl. repeat split.
Qed.

Lemma rows_carry_identity_witness :
  exists rows,
    comparison_data [property_a; property_b; property_a] = OK rows /\
    map row_Name rows
    = [Name property_a; Name property_b; Name property_a].
Proof.
  destruct (comparison_data_defined [property_a; property_b; property_a])
    as [rows [Hc _]].
  { constructor; [exact analysable_property_a |].
    constructor; [exact analysable_property_b |].
    constructor; [exact analysable_property_a | constructor]. }
  exists rows. split; [exact Hc |].
  apply (rows_carry_identity [property_a; property_b; property_a] rows Hc).
Defined.
